(** * Scripts/check_for_cuda.py: the CUDA installation check

    The script is one [try] block that talks to the [torch] runtime and
    prints what it learns; one [except Exception] handler turns any error
    into a diagnostic line.  The runtime is external, so it is a parameter
    of the model: a record of operations over an arbitrary runtime state,
    each of which either returns a value or raises.  The script runs in a
    state-and-exception monad whose state is the runtime state together
    with the trace of everything the script did to the outside world
    (runtime calls with their responses, and [print] calls). *)

From Stdlib Require Import String Ascii List ZArith DecimalString.
From ExtLib Require Import Structures.Monad Structures.MonadState
  Structures.MonadExc Data.Monads.StateMonad Data.Monads.EitherMonad.
Import ListNotations.
Import MonadNotation.
Local Open Scope string_scope.
Local Open Scope monad_scope.

Set Implicit Arguments.

(** ** Python values and exceptions *)

Module Python.

(** What can be raised.  [except Exception] catches the instances of
    [Exception]; [KeyboardInterrupt], [SystemExit] and [GeneratorExit]
    derive from [BaseException] only and pass through such a handler.
    [message] is what [str(ex)] gives. *)
Inductive BaseException : Type :=
| Exception (message : string)
| NotException (message : string).

Definition str (ex : BaseException) : string :=
  match ex with
  | Exception message => message
  | NotException message => message
  end.

Definition isinstance_Exception (ex : BaseException) : bool :=
  match ex with
  | Exception _ => true
  | NotException _ => false
  end.

(** The result of evaluating a call: an exception on the left, the value
    on the right. *)
Definition outcome (A : Type) : Type := (BaseException + A)%type.

Definition map_outcome {A B : Type} (f : A -> B) (r : outcome A) : outcome B :=
  match r with
  | inl ex => inl ex
  | inr v => inr (f v)
  end.

(** The values the script receives from the runtime.  [VOpaque] stands for
    a result the script never looks at (the module object of [import], the
    object built by [torch.cuda.device]). *)
Inductive value : Type :=
| VOpaque
| VInt (z : Z)
| VStr (s : string)
| VBool (b : bool).

(** [format(z, "")] for an [int], as an f-string field does: decimal
    digits, with a leading minus sign for a negative number. *)
Definition format_int (z : Z) : string := NilZero.string_of_int (Z.to_int z).

(** The line terminator written by [print]. *)
Definition newline : string := String (ascii_of_nat 10) EmptyString.

End Python.
Import Python.

Abbreviation Raised ex := (@inl BaseException _ ex).
Abbreviation Returned v := (@inr BaseException _ v).

(** ** The runtime, and the trace of an execution *)

(** The operations of [torch] the script uses, over a runtime state [S].
    [import_torch] is the [import torch] statement. *)
Record Torch (S : Type) : Type := {
  import_torch : S -> outcome unit * S;
  cuda_current_device : S -> outcome Z * S;
  cuda_device : Z -> S -> outcome unit * S;
  cuda_device_count : S -> outcome Z * S;
  cuda_get_device_name : Z -> S -> outcome string * S;
  cuda_is_available : S -> outcome bool * S
}.

Inductive call : Type :=
| ImportTorch
| CurrentDevice
| Device (device : Z)
| DeviceCount
| GetDeviceName (device : Z)
| IsAvailable.

Inductive event : Type :=
| Called (c : call) (r : outcome value)
| Printed (text : string).

Record World (S : Type) : Type := {
  rt_state : S;
  trace : list event
}.

(** ** The script monad *)

Section Script.

Context {S : Type}.
Variable torch : Torch S.

Definition Script : Type -> Type := eitherT BaseException (state (World S)).

(** A runtime call: the runtime moves to its next state, the call and its
    response are recorded, and an exception propagates. *)
Definition invoke {A : Type} (c : call) (repr : A -> value)
    (op : S -> outcome A * S) : Script A :=
  w <- get ;;
  let (r, s') := op (rt_state w) in
  put {| rt_state := s'; trace := trace w ++ [Called c (map_outcome repr r)] |} ;;
  match r with
  | inl ex => raise ex
  | inr v => ret v
  end.

(** [print(text)]: [text] and a newline go to standard output.  Writing
    to standard output is taken to succeed. *)
Definition print (text : string) : Script unit :=
  w <- get ;;
  put {| rt_state := rt_state w; trace := trace w ++ [Printed text] |}.

(** [try: body  except Exception as ex: handler ex].  Anything that is not
    an instance of [Exception] is not caught. *)
Definition try_except_Exception {A : Type} (body : Script A)
    (handler : BaseException -> Script A) : Script A :=
  catch body
    (fun ex => if isinstance_Exception ex then handler ex else raise ex).

Definition import_torch_stmt : Script unit :=
  invoke ImportTorch (fun _ => VOpaque) (import_torch torch).
Definition torch_cuda_current_device : Script Z :=
  invoke CurrentDevice VInt (cuda_current_device torch).
Definition torch_cuda_device (device : Z) : Script unit :=
  invoke (Device device) (fun _ => VOpaque) (cuda_device torch device).
Definition torch_cuda_device_count : Script Z :=
  invoke DeviceCount VInt (cuda_device_count torch).
Definition torch_cuda_get_device_name (device : Z) : Script string :=
  invoke (GetDeviceName device) VStr (cuda_get_device_name torch device).
Definition torch_cuda_is_available : Script bool :=
  invoke IsAvailable VBool (cuda_is_available torch).

(** The texts of the formatted lines: the three f-strings and the message
    of the handler. *)
Definition current_device_line (device_id : Z) : string :=
  "Current device id " ++ format_int device_id.
Definition device_count_line (device_count : Z) : string :=
  "Total number of available-cuda GPUs " ++ format_int device_count.
Definition device_name_line (device_name : string) : string :=
  "The name of the current device " ++ device_name.
Definition failure_line (ex : BaseException) : string :=
  "Cuda is not properly installed: " ++ str ex.

(** The module body of check_for_cuda.py. *)
Definition check_for_cuda : Script unit :=
  try_except_Exception
    (import_torch_stmt ;;
     device_id <- torch_cuda_current_device ;;
     print (current_device_line device_id) ;;
     torch_cuda_device device_id ;;
     device_count <- torch_cuda_device_count ;;
     print (device_count_line device_count) ;;
     device_name <- torch_cuda_get_device_name device_id ;;
     print (device_name_line device_name) ;;
     available <- torch_cuda_is_available ;;
     if available : bool then print "Success" else print "Error")
    (fun ex => print (failure_line ex)).

(** One execution of the script as a fresh process: nothing printed yet,
    the runtime in state [s]. *)
Definition run (s : S) : outcome unit * World S :=
  runState (unEitherT check_for_cuda) {| rt_state := s; trace := [] |}.

End Script.

(** ** What an execution shows *)

Fixpoint printed (t : list event) : list string :=
  match t with
  | [] => []
  | Printed text :: t' => text :: printed t'
  | Called _ _ :: t' => printed t'
  end.

Fixpoint runtime_calls (t : list event) : list (call * outcome value) :=
  match t with
  | [] => []
  | Called c r :: t' => (c, r) :: runtime_calls t'
  | Printed _ :: t' => runtime_calls t'
  end.

Fixpoint unlines (ls : list string) : string :=
  match ls with
  | [] => ""
  | l :: ls' => l ++ newline ++ unlines ls'
  end.

(** The characters on standard output after a trace. *)
Definition stdout (t : list event) : string := unlines (printed t).

Definition trace_of {S : Type} (torch : Torch S) (s : S) : list event :=
  trace (snd (run torch s)).
Definition result_of {S : Type} (torch : Torch S) (s : S) : outcome unit :=
  fst (run torch s).
Definition final_state {S : Type} (torch : Torch S) (s : S) : S :=
  rt_state (snd (run torch s)).

(** The responses the runtime gave, in order. *)
Fixpoint responses (t : list event) : list (outcome value) :=
  match t with
  | [] => []
  | Called _ r :: t' => r :: responses t'
  | Printed _ :: t' => responses t'
  end.

(** The first four steps went through: the import, the current-device query
    answering [device_id], the [torch.cuda.device] call on that index and the
    device-count query answering [device_count], leaving the runtime in
    state [s4]. *)
Definition queries_answered {S : Type} (torch : Torch S) (s0 : S)
    (device_id device_count : Z) (s4 : S) : Prop :=
  exists s1 s2 s3,
    import_torch torch s0 = (Returned tt, s1) /\
    cuda_current_device torch s1 = (Returned device_id, s2) /\
    cuda_device torch device_id s2 = (Returned tt, s3) /\
    cuda_device_count torch s3 = (Returned device_count, s4).

(** The same runtime, except that a device count [n] is reported as [f n]. *)
Definition with_device_count {S : Type} (f : Z -> Z) (torch : Torch S) : Torch S := {|
  import_torch := import_torch torch;
  cuda_current_device := cuda_current_device torch;
  cuda_device := cuda_device torch;
  cuda_device_count := fun s =>
    let (r, s') := cuda_device_count torch s in (map_outcome f r, s');
  cuda_get_device_name := cuda_get_device_name torch;
  cuda_is_available := cuda_is_available torch
|}.

(** ** A scripted runtime for tests *)

(** A test double with canned responses.  Its state is the number of calls
    it has served. *)
Record Mock : Type := {
  mock_import : outcome unit;
  mock_current_device : outcome Z;
  mock_device : Z -> outcome unit;
  mock_device_count : outcome Z;
  mock_get_device_name : Z -> outcome string;
  mock_is_available : outcome bool
}.

Definition mock_torch (m : Mock) : Torch nat := {|
  import_torch := fun n => (mock_import m, Datatypes.S n);
  cuda_current_device := fun n => (mock_current_device m, Datatypes.S n);
  cuda_device := fun d n => (mock_device m d, Datatypes.S n);
  cuda_device_count := fun n => (mock_device_count m, Datatypes.S n);
  cuda_get_device_name := fun d n => (mock_get_device_name m d, Datatypes.S n);
  cuda_is_available := fun n => (mock_is_available m, Datatypes.S n)
|}.

(** P1: one device, named "Mock GPU", available. *)
Definition mock_gpu : Mock := {|
  mock_import := Returned tt;
  mock_current_device := Returned 0%Z;
  mock_device := fun _ => Returned tt;
  mock_device_count := Returned 1%Z;
  mock_get_device_name := fun _ => Returned "Mock GPU";
  mock_is_available := Returned true
|}.

(** P2: the same, but not available. *)
Definition mock_unavailable : Mock := {|
  mock_import := Returned tt;
  mock_current_device := Returned 0%Z;
  mock_device := fun _ => Returned tt;
  mock_device_count := Returned 1%Z;
  mock_get_device_name := fun _ => Returned "Mock GPU";
  mock_is_available := Returned false
|}.

(** P3: the runtime binding is absent. *)
Definition mock_no_module : Mock := {|
  mock_import := Raised (Exception "no such module");
  mock_current_device := Returned 0%Z;
  mock_device := fun _ => Returned tt;
  mock_device_count := Returned 1%Z;
  mock_get_device_name := fun _ => Returned "Mock GPU";
  mock_is_available := Returned true
|}.

(** P4: a current device 0 but no device to name. *)
Definition mock_no_devices : Mock := {|
  mock_import := Returned tt;
  mock_current_device := Returned 0%Z;
  mock_device := fun _ => Returned tt;
  mock_device_count := Returned 0%Z;
  mock_get_device_name := fun _ => Raised (Exception "index out of range");
  mock_is_available := Returned false
|}.

(** The availability query itself fails. *)
Definition mock_availability_error : Mock := {|
  mock_import := Returned tt;
  mock_current_device := Returned 0%Z;
  mock_device := fun _ => Returned tt;
  mock_device_count := Returned 1%Z;
  mock_get_device_name := fun _ => Returned "Mock GPU";
  mock_is_available := Raised (Exception "driver too old")
|}.

(** A runtime with a device selector as its state: queries read it,
    [torch.cuda.device] writes it. *)
Definition selector_torch (names : list string) : Torch Z := {|
  import_torch := fun sel => (Returned tt, sel);
  cuda_current_device := fun sel => (Returned sel, sel);
  cuda_device := fun d _ => (Returned tt, d);
  cuda_device_count := fun sel => (Returned (Z.of_nat (length names)), sel);
  cuda_get_device_name := fun d sel =>
    (match nth_error names (Z.to_nat d) with
     | Some name => Returned name
     | None => Raised (Exception "Invalid device id")
     end, sel);
  cuda_is_available := fun sel => (Returned (negb (Nat.eqb (length names) 0)), sel)
|}.


(** The three status lines in program order. *)
Definition status_lines (device_id device_count : Z) (device_name : string)
    : list string :=
  [ current_device_line device_id; device_count_line device_count;
    device_name_line device_name ].

(** [torch.cuda.device] rejects the index. *)
Definition mock_device_error : Mock := {|
  mock_import := Returned tt;
  mock_current_device := Returned 0%Z;
  mock_device := fun _ => Raised (Exception "invalid device");
  mock_device_count := Returned 1%Z;
  mock_get_device_name := fun _ => Returned "Mock GPU";
  mock_is_available := Returned true
|}.

(** The device-count query fails. *)
Definition mock_count_error : Mock := {|
  mock_import := Returned tt;
  mock_current_device := Returned 0%Z;
  mock_device := fun _ => Returned tt;
  mock_device_count := Raised (Exception "invalid device");
  mock_get_device_name := fun _ => Returned "Mock GPU";
  mock_is_available := Returned true
|}.

(** The user interrupts the device-count query. *)
Definition mock_interrupted : Mock := {|
  mock_import := Returned tt;
  mock_current_device := Returned 0%Z;
  mock_device := fun _ => Returned tt;
  mock_device_count := Raised (NotException "KeyboardInterrupt");
  mock_get_device_name := fun _ => Returned "Mock GPU";
  mock_is_available := Returned true
|}.

Example mock_gpu_trace :
  trace_of (mock_torch mock_gpu) 0 =
  [ Called ImportTorch (Returned VOpaque);
    Called CurrentDevice (Returned (VInt 0));
    Printed "Current device id 0";
    Called (Device 0) (Returned VOpaque);
    Called DeviceCount (Returned (VInt 1));
    Printed "Total number of available-cuda GPUs 1";
    Called (GetDeviceName 0) (Returned (VStr "Mock GPU"));
    Printed "The name of the current device Mock GPU";
    Called IsAvailable (Returned (VBool true));
    Printed "Success" ].
Proof. reflexivity. Qed.

Example format_int_negative : format_int (-12) = "-12".
Proof. reflexivity. Qed.

(** * Properties *)

Unset Implicit Arguments.
Local Open Scope list_scope.

Arguments current_device_line : simpl never.
Arguments device_count_line : simpl never.
Arguments device_name_line : simpl never.
Arguments failure_line : simpl never.

(** ** Symbolic execution of the script *)

Ltac unfold_script :=
  unfold trace_of, result_of, final_state, run, check_for_cuda,
    try_except_Exception, import_torch_stmt, torch_cuda_current_device,
    torch_cuda_device, torch_cuda_device_count, torch_cuda_get_device_name,
    torch_cuda_is_available, invoke, print;
  cbn.

(** The response of the runtime to [op]: the one a hypothesis gives, or
    else each possible one in turn. *)
Ltac answer op :=
  lazymatch goal with
  | H : op = _ |- _ => rewrite H
  | _ => destruct op as [[[?message | ?message] | ?v] ?s] eqn:?
  end;
  cbn;
  try match goal with
      | |- context [if ?b then _ else _] => is_var b; destruct b; cbn
      end.

Ltac execute_step :=
  match goal with
  | |- context [import_torch ?t ?s] => answer (import_torch t s)
  | |- context [cuda_current_device ?t ?s] => answer (cuda_current_device t s)
  | |- context [cuda_device ?t ?d ?s] => answer (cuda_device t d s)
  | |- context [cuda_device_count ?t ?s] => answer (cuda_device_count t s)
  | |- context [cuda_get_device_name ?t ?d ?s] =>
      answer (cuda_get_device_name t d s)
  | |- context [cuda_is_available ?t ?s] => answer (cuda_is_available t s)
  end.

Ltac execute := unfold_script; repeat execute_step.

Ltac open_queries :=
  repeat match goal with
         | H : queries_answered _ _ _ _ _ |- _ =>
             destruct H as (? & ? & ? & ? & ? & ? & ?)
         end.

(** ** Standard output as a character stream *)

Lemma string_app_assoc (a b c : string) :
  ((a ++ b) ++ c)%string = (a ++ b ++ c)%string.
Proof. induction a as [|ch a IH]; cbn; [reflexivity | now rewrite IH]. Qed.

Lemma unlines_app (xs ys : list string) :
  unlines (xs ++ ys) = (unlines xs ++ unlines ys)%string.
Proof.
  induction xs as [|x xs IH]; cbn; [reflexivity|].
  now rewrite IH, !string_app_assoc.
Qed.

Lemma printed_app (t u : list event) : printed (t ++ u) = printed t ++ printed u.
Proof.
  induction t as [|[c r | text] t IH]; cbn; congruence.
Qed.

Lemma stdout_app (t u : list event) :
  stdout (t ++ u) = (stdout t ++ stdout u)%string.
Proof. unfold stdout. now rewrite printed_app, unlines_app. Qed.

Lemma stdout_failure (before : list event) (c : call) (ex : BaseException) :
  stdout (before ++ [Called c (Raised ex); Printed (failure_line ex)]) =
  (stdout before ++ "Cuda is not properly installed: " ++ str ex ++ newline)%string.
Proof.
  rewrite stdout_app. unfold stdout at 2, failure_line. cbn [printed unlines].
  now rewrite string_app_assoc.
Qed.

(** ** The two ordinary endings *)

(** C1 (happy path).  Against a runtime whose import succeeds, whose
    current-device query returns 0, whose [torch.cuda.device(0)] call
    succeeds, whose device count is 1, whose name for device 0 is
    "Mock GPU" and which reports availability, the script prints exactly
    the four lines "Current device id 0", "Total number of available-cuda
    GPUs 1", "The name of the current device Mock GPU" and "Success", in
    that order, each followed by a newline, and ends normally. *)
Theorem happy_path_prints_four_lines
    {S : Type} (torch : Torch S) (s0 s4 s5 s6 : S) :
  queries_answered torch s0 0 1 s4 ->
  cuda_get_device_name torch 0 s4 = (Returned "Mock GPU"%string, s5) ->
  cuda_is_available torch s5 = (Returned true, s6) ->
  printed (trace_of torch s0) =
    [ "Current device id 0";
      "Total number of available-cuda GPUs 1";
      "The name of the current device Mock GPU";
      "Success" ]%string /\
  stdout (trace_of torch s0) =
    ("Current device id 0" ++ newline ++
     "Total number of available-cuda GPUs 1" ++ newline ++
     "The name of the current device Mock GPU" ++ newline ++
     "Success" ++ newline)%string /\
  result_of torch s0 = Returned tt.
Proof.
  intros Hq Hname Havail. open_queries.
  repeat split; execute; reflexivity.
Qed.

Lemma mock_gpu_answers : queries_answered (mock_torch mock_gpu) 0 0 1 4.
Proof. exists 1, 2, 3. repeat split. Qed.

Lemma happy_path_prints_four_lines_witness :
  stdout (trace_of (mock_torch mock_gpu) 0) =
    ("Current device id 0" ++ newline ++
     "Total number of available-cuda GPUs 1" ++ newline ++
     "The name of the current device Mock GPU" ++ newline ++
     "Success" ++ newline)%string.
Proof.
  apply (happy_path_prints_four_lines (mock_torch mock_gpu) 0 4 5 6).
  - exact mock_gpu_answers.
  - reflexivity.
  - reflexivity.
Defined.

(** C3 (unavailable).  When the first four operations succeed and the
    availability query returns false, the script prints the same three
    status lines as an execution that got the same index, count and name and
    an availability of true, and then "Error" as its fourth and last line
    where the other prints "Success".  No call raised, no failure line was
    printed, and the script ends normally. *)
Theorem unavailable_prints_Error
    {S S' : Type} (torch : Torch S) (torch' : Torch S')
    (s0 s4 s5 s6 : S) (s0' s4' s5' s6' : S')
    (device_id device_count : Z) (device_name : string) :
  queries_answered torch s0 device_id device_count s4 ->
  cuda_get_device_name torch device_id s4 = (Returned device_name, s5) ->
  cuda_is_available torch s5 = (Returned false, s6) ->
  queries_answered torch' s0' device_id device_count s4' ->
  cuda_get_device_name torch' device_id s4' = (Returned device_name, s5') ->
  cuda_is_available torch' s5' = (Returned true, s6') ->
  printed (trace_of torch s0) =
    [ current_device_line device_id; device_count_line device_count;
      device_name_line device_name; "Error"%string ] /\
  printed (trace_of torch' s0') =
    [ current_device_line device_id; device_count_line device_count;
      device_name_line device_name; "Success"%string ] /\
  (forall c r, In (Called c r) (trace_of torch s0) -> exists v, r = Returned v) /\
  (forall ex, ~ In (failure_line ex) (printed (trace_of torch s0))) /\
  result_of torch s0 = Returned tt.
Proof.
  intros Hq Hname Havail Hq' Hname' Havail'. open_queries.
  repeat split; execute; try reflexivity.
  - intros c r Hin. cbn in Hin.
    repeat (destruct Hin as [Hin | Hin]; [inversion Hin; eauto |]).
    contradiction.
  - intros ex Hin. cbn in Hin.
    unfold failure_line, current_device_line, device_count_line,
      device_name_line in Hin.
    repeat (destruct Hin as [Hin | Hin]; [discriminate Hin |]).
    contradiction.
Qed.

Lemma unavailable_prints_Error_witness :
  printed (trace_of
    (mock_torch mock_unavailable) 0) =
  [ "Current device id 0"; "Total number of available-cuda GPUs 1";
    "The name of the current device Mock GPU"; "Error" ]%string.
Proof.
  refine (proj1 (unavailable_prints_Error _ (mock_torch mock_gpu)
                   0 4 5 6 0 4 5 6 0%Z 1%Z "Mock GPU"%string _ _ _ _ _ _)).
  - exists 1, 2, 3. repeat split.
  - reflexivity.
  - reflexivity.
  - exact mock_gpu_answers.
  - reflexivity.
  - reflexivity.
Defined.

(** ** Failures at a given step *)

(** C4 (runtime absent).  If the first operation raises an error with
    message [message] (the import itself, or the current-device query after a
    successful import), standard output is the single line
    "Cuda is not properly installed: " followed by [message]: no status line
    comes before it, nothing after it, and the script ends normally. *)
Theorem first_query_error_prints_only_failure_line
    {S : Type} (torch : Torch S) (s0 : S) (message : string) :
  (exists s1, import_torch torch s0 = (Raised (Exception message), s1)) \/
  (exists s1 s2,
     import_torch torch s0 = (Returned tt, s1) /\
     cuda_current_device torch s1 = (Raised (Exception message), s2)) ->
  printed (trace_of torch s0) =
    [ ("Cuda is not properly installed: " ++ message)%string ] /\
  stdout (trace_of torch s0) =
    ("Cuda is not properly installed: " ++ message ++ newline)%string /\
  result_of torch s0 = Returned tt.
Proof.
  intros [(s1 & Himport) | (s1 & s2 & Himport & Hcurrent)];
    repeat split; execute; reflexivity.
Qed.

Lemma first_query_error_prints_only_failure_line_witness :
  stdout (trace_of
    (mock_torch mock_no_module) 0) =
  ("Cuda is not properly installed: no such module" ++ newline)%string.
Proof.
  refine (proj1 (proj2 (first_query_error_prints_only_failure_line
                          _ 0 "no such module"%string _))).
  left. exists 1. reflexivity.
Defined.

(** C5 (no devices).  If the import, the current-device query, the
    [torch.cuda.device] call and the device-count query succeed and the
    device-name query raises an error, standard output is the
    "Current device id" line, the "Total number of available-cuda GPUs" line
    and the failure line with that error's text, and nothing else: neither
    "Success" nor "Error" is printed.  The script ends normally. *)
Theorem device_name_error_prints_two_lines_and_failure
    {S : Type} (torch : Torch S) (s0 s4 s5 : S)
    (device_id device_count : Z) (message : string) :
  queries_answered torch s0 device_id device_count s4 ->
  cuda_get_device_name torch device_id s4 = (Raised (Exception message), s5) ->
  printed (trace_of torch s0) =
    [ ("Current device id " ++ format_int device_id)%string;
      ("Total number of available-cuda GPUs " ++ format_int device_count)%string;
      ("Cuda is not properly installed: " ++ message)%string ] /\
  ~ In "Success"%string (printed (trace_of torch s0)) /\
  ~ In "Error"%string (printed (trace_of torch s0)) /\
  result_of torch s0 = Returned tt.
Proof.
  intros Hq Hname. open_queries.
  repeat split; execute; try reflexivity.
  all: intros Hin; cbn in Hin;
    unfold failure_line, current_device_line, device_count_line in Hin;
    repeat (destruct Hin as [Hin | Hin]; [discriminate Hin |]);
    contradiction.
Qed.

Lemma device_name_error_prints_two_lines_and_failure_witness :
  printed (trace_of (mock_torch mock_no_devices) 0) =
  [ "Current device id 0"; "Total number of available-cuda GPUs 0";
    "Cuda is not properly installed: index out of range" ]%string.
Proof.
  refine (proj1 (device_name_error_prints_two_lines_and_failure
                   (mock_torch mock_no_devices) 0 4 5 0%Z 0%Z
                   "index out of range"%string _ _)).
  - exists 1, 2, 3. repeat split.
  - reflexivity.
Defined.

(** C10.  If the first four operations succeed and the availability query
    itself raises an error, the three status lines already printed stay and
    are followed by the failure line alone: neither "Success" nor "Error" is
    printed.  The script ends normally. *)
Theorem availability_error_prints_three_lines_and_failure
    {S : Type} (torch : Torch S) (s0 s4 s5 s6 : S)
    (device_id device_count : Z) (device_name message : string) :
  queries_answered torch s0 device_id device_count s4 ->
  cuda_get_device_name torch device_id s4 = (Returned device_name, s5) ->
  cuda_is_available torch s5 = (Raised (Exception message), s6) ->
  printed (trace_of torch s0) =
    [ ("Current device id " ++ format_int device_id)%string;
      ("Total number of available-cuda GPUs " ++ format_int device_count)%string;
      ("The name of the current device " ++ device_name)%string;
      ("Cuda is not properly installed: " ++ message)%string ] /\
  ~ In "Success"%string (printed (trace_of torch s0)) /\
  ~ In "Error"%string (printed (trace_of torch s0)) /\
  result_of torch s0 = Returned tt.
Proof.
  intros Hq Hname Havail. open_queries.
  repeat split; execute; try reflexivity.
  all: intros Hin; cbn in Hin;
    unfold failure_line, current_device_line, device_count_line,
      device_name_line in Hin;
    repeat (destruct Hin as [Hin | Hin]; [discriminate Hin |]);
    contradiction.
Qed.

Lemma availability_error_prints_three_lines_and_failure_witness :
  printed (trace_of
    (mock_torch mock_availability_error) 0) =
  [ "Current device id 0"; "Total number of available-cuda GPUs 1";
    "The name of the current device Mock GPU";
    "Cuda is not properly installed: driver too old" ]%string.
Proof.
  refine (proj1 (availability_error_prints_three_lines_and_failure
                   _ 0 4 5 6 0%Z 1%Z "Mock GPU"%string
                   "driver too old"%string _ _ _)).
  - exists 1, 2, 3. repeat split.
  - reflexivity.
  - reflexivity.
Defined.

(** ** The failure handler *)

Ltac cases_of_In H :=
  cbn in H;
  repeat (destruct H as [H | H];
          [try discriminate H; inversion H; subst; clear H |]);
  try contradiction.

(** An execution in which a call raised an instance of [Exception] ends with
    that call and the failure line; every call before it returned. *)
Lemma failure_shape {S : Type} (torch : Torch S) (s : S)
    (c : call) (message : string) :
  In (Called c (Raised (Exception message))) (trace_of torch s) ->
  exists before,
    trace_of torch s =
      before ++ [ Called c (Raised (Exception message));
                  Printed (failure_line (Exception message)) ] /\
    (forall c' r, In (Called c' r) before -> exists v, r = Returned v) /\
    (forall ex, ~ In (failure_line ex) (printed before)) /\
    result_of torch s = Returned tt.
Proof.
  revert c message. execute; intros c0 message0 Hin; cases_of_In Hin.
  all: match goal with
       | |- exists before, ?t = _ /\ _ =>
           exists (removelast (removelast t)); cbn [removelast]
       end.
  all: split; [reflexivity |].
  all: split; [intros c' r Hin; cases_of_In Hin; eauto |].
  all: split; [| reflexivity].
  all: intros ex Hin;
    unfold failure_line, current_device_line, device_count_line,
      device_name_line in Hin;
    cases_of_In Hin.
Qed.

(** An exception that is not an instance of [Exception] is not handled: the
    script ends with it and prints nothing more. *)
Lemma not_Exception_propagates {S : Type} (torch : Torch S) (s : S)
    (c : call) (message : string) :
  In (Called c (Raised (NotException message))) (trace_of torch s) ->
  result_of torch s = Raised (NotException message) /\
  last (trace_of torch s) (Printed "") = Called c (Raised (NotException message)).
Proof.
  revert c message. execute; intros c0 message0 Hin; cases_of_In Hin.
  all: split; reflexivity.
Qed.

(** C2 (failure handling, propagation policy).  In every execution in which
    one of the runtime operations raises an error, that call is the last one
    made (the remaining steps are skipped), exactly one more [print] follows
    it, with the text "Cuda is not properly installed: " and the error's
    message, standard output is what had been printed before the failing step
    followed by that line, and the script ends normally: the error is not
    raised again.  An error is an instance of [Exception], which is what the
    handler names. *)
Theorem any_error_is_reported_once_and_not_reraised
    {S : Type} (torch : Torch S) (s : S) (c : call) (message : string) :
  In (Called c (Raised (Exception message))) (trace_of torch s) ->
  exists before,
    trace_of torch s =
      before ++ [ Called c (Raised (Exception message));
                  Printed ("Cuda is not properly installed: " ++ message)%string ] /\
    (forall c' r, In (Called c' r) before -> exists v, r = Returned v) /\
    (forall ex, ~ In (failure_line ex) (printed before)) /\
    stdout (trace_of torch s) =
      (stdout before ++
       "Cuda is not properly installed: " ++ message ++ newline)%string /\
    result_of torch s = Returned tt.
Proof.
  intros Hin.
  destruct (failure_shape torch s c message Hin)
    as (before & Htrace & Hbefore & Hlines & Hresult).
  exists before. repeat split; try assumption.
  rewrite Htrace. exact (stdout_failure before c (Exception message)).
Qed.

Lemma any_error_is_reported_once_and_not_reraised_witness :
  exists before,
    trace_of (mock_torch mock_no_devices) 0 =
      before ++ [ Called (GetDeviceName 0) (Raised (Exception "index out of range"));
                  Printed "Cuda is not properly installed: index out of range" ] /\
    (forall c' r, In (Called c' r) before -> exists v, r = Returned v) /\
    (forall ex, ~ In (failure_line ex) (printed before)) /\
    stdout (trace_of (mock_torch mock_no_devices) 0) =
      (stdout before ++
       "Cuda is not properly installed: " ++ "index out of range" ++ newline)%string /\
    result_of (mock_torch mock_no_devices) 0 = Returned tt.
Proof.
  apply (any_error_is_reported_once_and_not_reraised
           (mock_torch mock_no_devices) 0 (GetDeviceName 0)
           "index out of range"%string).
  cbn. tauto.
Defined.

(** C7 (error text).  On every failure the text of the error, [str(ex)],
    is printed unchanged: the last line printed is the fixed prefix
    "Cuda is not properly installed: " followed by exactly that text, and
    standard output ends with that line. *)
Theorem error_text_is_forwarded_verbatim
    {S : Type} (torch : Torch S) (s : S) (c : call) (ex : BaseException) :
  isinstance_Exception ex = true ->
  In (Called c (Raised ex)) (trace_of torch s) ->
  last (printed (trace_of torch s)) ""%string =
    ("Cuda is not properly installed: " ++ str ex)%string /\
  exists earlier,
    stdout (trace_of torch s) =
      (earlier ++ "Cuda is not properly installed: " ++ str ex ++ newline)%string.
Proof.
  intros Hex Hin. destruct ex as [message | message]; [| discriminate Hex].
  destruct (failure_shape torch s c message Hin) as (before & Htrace & _).
  rewrite Htrace. split.
  - rewrite printed_app. cbn [printed]. apply last_last.
  - exists (stdout before). exact (stdout_failure before c (Exception message)).
Qed.

Lemma error_text_is_forwarded_verbatim_witness :
  last (printed (trace_of (mock_torch mock_no_devices) 0)) ""%string =
    "Cuda is not properly installed: index out of range"%string.
Proof.
  refine (proj1 (error_text_is_forwarded_verbatim
                   (mock_torch mock_no_devices) 0 (GetDeviceName 0)
                   (Exception "index out of range") _ _)).
  - reflexivity.
  - cbn. tauto.
Defined.

(** ** How the queried values are used *)

(** C6.  Whenever [torch.cuda.device] is called, its argument is the value
    the current-device query has just returned: the two are consecutive
    runtime calls, right after the import.  A device-name query in the same
    execution gets that value too. *)
Theorem set_device_receives_queried_index
    {S : Type} (torch : Torch S) (s : S) (device : Z) (r : outcome value) :
  In (Called (Device device) r) (trace_of torch s) ->
  (exists later,
     runtime_calls (trace_of torch s) =
       (ImportTorch, Returned VOpaque) ::
       (CurrentDevice, Returned (VInt device)) ::
       (Device device, r) :: later) /\
  (forall device' r',
     In (Called (GetDeviceName device') r') (trace_of torch s) ->
     device' = device).
Proof.
  revert device r. execute; intros device0 r0 Hin; cases_of_In Hin.
  all: split; [eexists; reflexivity |].
  all: intros device' r' Hin; cases_of_In Hin; reflexivity.
Qed.

Lemma set_device_receives_queried_index_witness :
  exists later,
    runtime_calls (trace_of (selector_torch ["A"; "B"; "C"]%string) 2%Z) =
      (ImportTorch, Returned VOpaque) ::
      (CurrentDevice, Returned (VInt 2)) ::
      (Device 2, Returned VOpaque) :: later.
Proof.
  refine (proj1 (set_device_receives_queried_index
                   (selector_torch ["A"; "B"; "C"]%string) 2%Z 2%Z
                   (Returned VOpaque) _)).
  vm_compute. tauto.
Defined.

(** The argument is not a constant of the script: every index occurs as the
    argument in some execution. *)
Lemma set_device_argument_is_any_index (device : Z) :
  In (Called (Device device) (Returned VOpaque))
     (trace_of (selector_torch []) device).
Proof. unfold_script. destruct (Z.to_nat device); cbn; tauto. Qed.

(** C9.  The device count is printed and used for nothing else.  Whatever
    count the runtime reports, the device-name query is made with the index
    from the current-device query, with no comparison of the two; and a
    runtime that reports [f n] where another reports [n] sees the same calls
    with the same arguments, gives the same ending and final state, and
    changes standard output in the count line only. *)
Theorem device_count_is_printed_and_never_checked
    {S : Type} (torch : Torch S) (s : S) (f : Z -> Z) :
  (forall device_id device_count,
     In (Called CurrentDevice (Returned (VInt device_id))) (trace_of torch s) ->
     In (Called DeviceCount (Returned (VInt device_count))) (trace_of torch s) ->
     exists r, In (Called (GetDeviceName device_id) r) (trace_of torch s)) /\
  map fst (runtime_calls (trace_of (with_device_count f torch) s)) =
    map fst (runtime_calls (trace_of torch s)) /\
  result_of (with_device_count f torch) s = result_of torch s /\
  final_state (with_device_count f torch) s = final_state torch s /\
  (forall device_count,
     In (Called DeviceCount (Returned (VInt device_count))) (trace_of torch s) ->
     exists first rest,
       printed (trace_of torch s) =
         first :: device_count_line device_count :: rest /\
       printed (trace_of (with_device_count f torch) s) =
         first :: device_count_line (f device_count) :: rest) /\
  ((forall device_count,
      ~ In (Called DeviceCount (Returned (VInt device_count))) (trace_of torch s)) ->
   trace_of (with_device_count f torch) s = trace_of torch s).
Proof.
  execute.
  all: repeat split; try reflexivity.
  all: try (intros device_id device_count Hin Hin'; cases_of_In Hin;
            cases_of_In Hin'; eexists; cbn; eauto 12; fail).
  all: try (intros device_count Hin; cases_of_In Hin;
            do 2 eexists; split; reflexivity).
  all: intros Hnone; exfalso; eapply Hnone; cbn; eauto 12.
Qed.

Lemma device_count_is_printed_and_never_checked_witness :
  exists r,
    In (Called (GetDeviceName 0) r) (trace_of (mock_torch mock_no_devices) 0).
Proof.
  refine (proj1 (device_count_is_printed_and_never_checked
                   (mock_torch mock_no_devices) 0 (fun n => n)) 0%Z 0%Z _ _).
  - cbn. tauto.
  - cbn. tauto.
Defined.

(** ** Determinism *)

(** The whole trace of an execution is a function of the responses the
    runtime gave. *)
Lemma responses_determine_trace
    {S1 S2 : Type} (torch1 : Torch S1) (torch2 : Torch S2) (s1 : S1) (s2 : S2) :
  responses (trace_of torch1 s1) = responses (trace_of torch2 s2) ->
  trace_of torch1 s1 = trace_of torch2 s2 /\
  result_of torch1 s1 = result_of torch2 s2.
Proof.
  execute; intros Heq; cbn in Heq; try discriminate Heq.
  all: inversion Heq; subst; split; reflexivity.
Qed.

(** C8 (idempotence).  Two executions in which the runtime gives the same
    responses (the same values returned, the same errors raised) write the
    same characters to standard output and end the same way, whatever the
    runtime and its state: the script keeps nothing from one invocation to
    the next, and reads the runtime through the six calls only. *)
Theorem same_responses_same_stdout
    {S1 S2 : Type} (torch1 : Torch S1) (torch2 : Torch S2) (s1 : S1) (s2 : S2) :
  responses (trace_of torch1 s1) = responses (trace_of torch2 s2) ->
  stdout (trace_of torch1 s1) = stdout (trace_of torch2 s2) /\
  result_of torch1 s1 = result_of torch2 s2.
Proof.
  intros Heq.
  destruct (responses_determine_trace torch1 torch2 s1 s2 Heq) as [Htrace Hresult].
  now rewrite Htrace.
Qed.

(** Two invocations in succession against the test double: the second starts
    from the state the first left. *)
Lemma same_responses_same_stdout_witness :
  stdout (trace_of (mock_torch mock_gpu) 0) =
  stdout (trace_of (mock_torch mock_gpu) (final_state (mock_torch mock_gpu) 0)).
Proof.
  refine (proj1 (same_responses_same_stdout
                   (mock_torch mock_gpu) (mock_torch mock_gpu)
                   0 (final_state (mock_torch mock_gpu) 0) _)).
  reflexivity.
Defined.

Section ReadOnlyRuntime.

(** A runtime whose import and queries leave its state alone, and whose
    [torch.cuda.device] call does so too when given the device that is
    already current. *)
Context {S : Type}.
Variable torch : Torch S.
Hypothesis import_keeps : forall s, snd (import_torch torch s) = s.
Hypothesis current_device_keeps : forall s, snd (cuda_current_device torch s) = s.
Hypothesis device_count_keeps : forall s, snd (cuda_device_count torch s) = s.
Hypothesis get_device_name_keeps :
  forall d s, snd (cuda_get_device_name torch d s) = s.
Hypothesis is_available_keeps : forall s, snd (cuda_is_available torch s) = s.
Hypothesis device_noop_on_current :
  forall s d, fst (cuda_current_device torch s) = Returned d ->
              snd (cuda_device torch d s) = s.

Ltac keep H op :=
  let E := fresh "E" in
  let s' := fresh "s'" in
  pose proof H as E; destruct op as [[[?message | ?message] | ?v] s'] eqn:?;
  cbn in E; subst s'; cbn.

Lemma run_keeps_state (s : S) : final_state torch s = s.
Proof.
  unfold_script.
  keep (import_keeps s) (import_torch torch s); try reflexivity.
  keep (current_device_keeps s) (cuda_current_device torch s); try reflexivity.
  assert (Hdev : snd (cuda_device torch v0 s) = s).
  { apply device_noop_on_current.
    match goal with H : cuda_current_device torch s = _ |- _ => now rewrite H end. }
  keep Hdev (cuda_device torch v0 s); try reflexivity.
  keep (device_count_keeps s) (cuda_device_count torch s); try reflexivity.
  keep (get_device_name_keeps v0 s) (cuda_get_device_name torch v0 s);
    try reflexivity.
  keep (is_available_keeps s) (cuda_is_available torch s); try reflexivity.
  destruct v4; reflexivity.
Qed.

(** Invoked twice in succession, the script prints the same both times. *)
Lemma second_invocation_prints_the_same (s : S) :
  stdout (trace_of torch (final_state torch s)) = stdout (trace_of torch s) /\
  result_of torch (final_state torch s) = result_of torch s.
Proof. now rewrite run_keeps_state. Qed.

End ReadOnlyRuntime.

Example selector_runtime_twice :
  stdout (trace_of (selector_torch ["Mock GPU"%string])
            (final_state (selector_torch ["Mock GPU"%string]) 0%Z)) =
  stdout (trace_of (selector_torch ["Mock GPU"%string]) 0%Z).
Proof.
  apply (second_invocation_prints_the_same (selector_torch ["Mock GPU"%string]));
    try reflexivity.
  intros s d H. cbn in *. now inversion H.
Qed.

(** * Further properties of the script *)

Ltac lines_in H :=
  unfold failure_line, current_device_line, device_count_line,
    device_name_line in H;
  cases_of_In H.

(** ** The order of the calls and of the lines *)


(** X2.  What is printed is always an initial part of the three status
    lines, in program order, followed by at most one more line: the failure
    line, or, only after all three status lines, "Success" or "Error".  So no
    execution prints more than four lines. *)
Theorem printed_lines_are_status_lines_then_one_verdict
    {S : Type} (torch : Torch S) (s : S) :
  exists device_id device_count device_name k tail,
    printed (trace_of torch s) =
      firstn k (status_lines device_id device_count device_name) ++ tail /\
    (tail = [] \/
     (exists ex, tail = [failure_line ex]) \/
     (k = 3 /\ (tail = ["Success"%string] \/ tail = ["Error"%string]))) /\
    length (printed (trace_of torch s)) <= 4.
Proof.
  execute.
  all: unshelve
    (first
       [ do 3 eexists; exists 0; eexists;
         split; [reflexivity |];
         split; [| repeat constructor];
         first [left; reflexivity | right; left; eexists; reflexivity]
       | do 3 eexists; exists 1; eexists;
         split; [reflexivity |];
         split; [| repeat constructor];
         first [left; reflexivity | right; left; eexists; reflexivity]
       | do 3 eexists; exists 2; eexists;
         split; [reflexivity |];
         split; [| repeat constructor];
         first [left; reflexivity | right; left; eexists; reflexivity]
       | do 3 eexists; exists 3; eexists;
         split; [reflexivity |];
         split; [| repeat constructor];
         first [ left; reflexivity
               | right; left; eexists; reflexivity
               | right; right; split; [reflexivity |];
                 first [left; reflexivity | right; reflexivity] ] ]);
    try exact 0%Z; try exact EmptyString.
Qed.

(** ** What the handler does not catch *)

(** X3.  An exception that is not an instance of [Exception] (a
    [KeyboardInterrupt], say) raised by a runtime call is not handled by
    [except Exception]: the script ends with that exception, the call is the
    last thing it did, and no failure line, "Success" or "Error" is
    printed. *)
Theorem non_Exception_escapes_the_handler
    {S : Type} (torch : Torch S) (s : S) (c : call) (message : string) :
  In (Called c (Raised (NotException message))) (trace_of torch s) ->
  result_of torch s = Raised (NotException message) /\
  (exists before,
     trace_of torch s = before ++ [Called c (Raised (NotException message))] /\
     forall c' r, In (Called c' r) before -> exists v, r = Returned v) /\
  (forall ex, ~ In (failure_line ex) (printed (trace_of torch s))) /\
  ~ In "Success"%string (printed (trace_of torch s)) /\
  ~ In "Error"%string (printed (trace_of torch s)).
Proof.
  revert c message. execute; intros c0 message0 Hin; cases_of_In Hin.
  all: split; [reflexivity |].
  all: split;
    [ match goal with
      | |- exists before, ?t = _ /\ _ =>
          exists (removelast t); cbn [removelast]
      end;
      split; [reflexivity | intros c' r Hin; cases_of_In Hin; eauto] |].
  all: split; [intros ex Hin; lines_in Hin |].
  all: split; intros Hin; lines_in Hin.
Qed.

Lemma non_Exception_escapes_the_handler_witness :
  result_of (mock_torch mock_interrupted) 0 =
    Raised (NotException "KeyboardInterrupt").
Proof.
  refine (proj1 (non_Exception_escapes_the_handler
                   (mock_torch mock_interrupted) 0 DeviceCount
                   "KeyboardInterrupt"%string _)).
  cbn. tauto.
Defined.

(** X4.  The script ends normally exactly when no call raised something
    other than an [Exception]; and then the last line printed is the verdict:
    "Success", "Error", or the failure line of the error that a call
    raised. *)
Theorem normal_end_prints_a_verdict_last
    {S : Type} (torch : Torch S) (s : S) :
  (result_of torch s = Returned tt <->
   forall c message,
     ~ In (Called c (Raised (NotException message))) (trace_of torch s)) /\
  (result_of torch s = Returned tt ->
   printed (trace_of torch s) <> [] /\
   (last (printed (trace_of torch s)) ""%string = "Success"%string \/
    last (printed (trace_of torch s)) ""%string = "Error"%string \/
    exists c ex,
      In (Called c (Raised ex)) (trace_of torch s) /\
      last (printed (trace_of torch s)) ""%string = failure_line ex)).
Proof.
  execute.
  all: split;
    [ split;
      [ intros Hres c' message' Hin; try discriminate Hres; cases_of_In Hin
      | intros Hnone; try reflexivity; exfalso; eapply Hnone; cbn; eauto 12 ]
    | intros Hres; try discriminate Hres ].
  all: split; [discriminate |].
  all: first
    [ left; reflexivity
    | right; left; reflexivity
    | right; right; do 2 eexists; split; [cbn; eauto 12 | reflexivity] ].
Qed.

Lemma normal_end_prints_a_verdict_last_witness :
  printed (trace_of (mock_torch mock_no_devices) 0) <> [] /\
  (last (printed (trace_of (mock_torch mock_no_devices) 0)) ""%string =
     "Success"%string \/
   last (printed (trace_of (mock_torch mock_no_devices) 0)) ""%string =
     "Error"%string \/
   exists c ex,
     In (Called c (Raised ex)) (trace_of (mock_torch mock_no_devices) 0) /\
     last (printed (trace_of (mock_torch mock_no_devices) 0)) ""%string =
       failure_line ex).
Proof.
  apply (proj2 (normal_end_prints_a_verdict_last
                  (mock_torch mock_no_devices) 0)).
  reflexivity.
Defined.

(** ** What "Success" and "Error" mean *)

(** X5.  "Success" is printed exactly when all six calls returned and the
    availability query returned true. *)
Theorem Success_iff_all_calls_returned_and_available
    {S : Type} (torch : Torch S) (s : S) :
  In "Success"%string (printed (trace_of torch s)) <->
  exists device_id device_count device_name,
    runtime_calls (trace_of torch s) =
      [ (ImportTorch, Returned VOpaque);
        (CurrentDevice, Returned (VInt device_id));
        (Device device_id, Returned VOpaque);
        (DeviceCount, Returned (VInt device_count));
        (GetDeviceName device_id, Returned (VStr device_name));
        (IsAvailable, Returned (VBool true)) ].
Proof.
  execute.
  all: split;
    [ intros Hin; lines_in Hin; eauto
    | intros (device_id & device_count & device_name & Hcalls);
      try discriminate Hcalls; cbn; tauto ].
Qed.

Lemma Success_iff_all_calls_returned_and_available_witness :
  In "Success"%string (printed (trace_of (mock_torch mock_gpu) 0)).
Proof.
  apply (proj2 (Success_iff_all_calls_returned_and_available
                  (mock_torch mock_gpu) 0)).
  exists 0%Z, 1%Z, "Mock GPU"%string. reflexivity.
Defined.

(** X6.  "Error" is printed exactly when all six calls returned and the
    availability query returned false: a call that raises never leads to
    "Error", only to the failure line. *)
Theorem Error_iff_all_calls_returned_and_unavailable
    {S : Type} (torch : Torch S) (s : S) :
  In "Error"%string (printed (trace_of torch s)) <->
  exists device_id device_count device_name,
    runtime_calls (trace_of torch s) =
      [ (ImportTorch, Returned VOpaque);
        (CurrentDevice, Returned (VInt device_id));
        (Device device_id, Returned VOpaque);
        (DeviceCount, Returned (VInt device_count));
        (GetDeviceName device_id, Returned (VStr device_name));
        (IsAvailable, Returned (VBool false)) ].
Proof.
  execute.
  all: split;
    [ intros Hin; lines_in Hin; eauto
    | intros (device_id & device_count & device_name & Hcalls);
      try discriminate Hcalls; cbn; tauto ].
Qed.

Lemma Error_iff_all_calls_returned_and_unavailable_witness :
  In "Error"%string (printed (trace_of (mock_torch mock_unavailable) 0)).
Proof.
  apply (proj2 (Error_iff_all_calls_returned_and_unavailable
                  (mock_torch mock_unavailable) 0)).
  exists 0%Z, 1%Z, "Mock GPU"%string. reflexivity.
Defined.

(** ** Failures at the two middle steps *)

(** X7.  If the import and the current-device query succeed and the
    [torch.cuda.device] call raises an error, the script prints the
    "Current device id" line and the failure line and nothing else, and
    makes no further call: the device count is never queried. *)
Theorem set_device_error_prints_one_line_and_failure
    {S : Type} (torch : Torch S) (s0 s1 s2 s3 : S)
    (device_id : Z) (message : string) :
  import_torch torch s0 = (Returned tt, s1) ->
  cuda_current_device torch s1 = (Returned device_id, s2) ->
  cuda_device torch device_id s2 = (Raised (Exception message), s3) ->
  printed (trace_of torch s0) =
    [ ("Current device id " ++ format_int device_id)%string;
      ("Cuda is not properly installed: " ++ message)%string ] /\
  map fst (runtime_calls (trace_of torch s0)) =
    [ ImportTorch; CurrentDevice; Device device_id ] /\
  final_state torch s0 = s3 /\
  result_of torch s0 = Returned tt.
Proof.
  intros Himport Hcurrent Hdevice.
  repeat split; execute; reflexivity.
Qed.

Lemma set_device_error_prints_one_line_and_failure_witness :
  printed (trace_of (mock_torch mock_device_error) 0) =
  [ "Current device id 0";
    "Cuda is not properly installed: invalid device" ]%string.
Proof.
  refine (proj1 (set_device_error_prints_one_line_and_failure
                   (mock_torch mock_device_error) 0 1 2 3 0%Z
                   "invalid device"%string _ _ _)); reflexivity.
Defined.

(** X8.  If the first three steps succeed and the device-count query raises
    an error, the script again prints the "Current device id" line and the
    failure line and nothing else: no count line, and no device-name or
    availability query. *)
Theorem device_count_error_prints_one_line_and_failure
    {S : Type} (torch : Torch S) (s0 s1 s2 s3 s4 : S)
    (device_id : Z) (message : string) :
  import_torch torch s0 = (Returned tt, s1) ->
  cuda_current_device torch s1 = (Returned device_id, s2) ->
  cuda_device torch device_id s2 = (Returned tt, s3) ->
  cuda_device_count torch s3 = (Raised (Exception message), s4) ->
  printed (trace_of torch s0) =
    [ ("Current device id " ++ format_int device_id)%string;
      ("Cuda is not properly installed: " ++ message)%string ] /\
  map fst (runtime_calls (trace_of torch s0)) =
    [ ImportTorch; CurrentDevice; Device device_id; DeviceCount ] /\
  final_state torch s0 = s4 /\
  result_of torch s0 = Returned tt.
Proof.
  intros Himport Hcurrent Hdevice Hcount.
  repeat split; execute; reflexivity.
Qed.

Lemma device_count_error_prints_one_line_and_failure_witness :
  printed (trace_of (mock_torch mock_count_error) 0) =
  [ "Current device id 0";
    "Cuda is not properly installed: invalid device" ]%string.
Proof.
  refine (proj1 (device_count_error_prints_one_line_and_failure
                   (mock_torch mock_count_error) 0 1 2 3 4 0%Z
                   "invalid device"%string _ _ _ _)); reflexivity.
Defined.

(** X9.  Standard output does not tell which call failed.  Two executions
    that print the same status lines and then fail with the same error text
    write the same characters, whichever calls raised: the failure line
    carries the text of the error and nothing about the step. *)
Theorem stdout_does_not_name_the_failing_call
    {S1 S2 : Type} (torch1 : Torch S1) (torch2 : Torch S2) (s1 : S1) (s2 : S2)
    (c1 c2 : call) (message : string) :
  In (Called c1 (Raised (Exception message))) (trace_of torch1 s1) ->
  In (Called c2 (Raised (Exception message))) (trace_of torch2 s2) ->
  removelast (printed (trace_of torch1 s1)) =
    removelast (printed (trace_of torch2 s2)) ->
  stdout (trace_of torch1 s1) = stdout (trace_of torch2 s2).
Proof.
  intros Hin1 Hin2 Hstatus.
  destruct (failure_shape torch1 s1 c1 message Hin1) as (before1 & Ht1 & _).
  destruct (failure_shape torch2 s2 c2 message Hin2) as (before2 & Ht2 & _).
  rewrite Ht1, Ht2 in *.
  rewrite !printed_app in Hstatus. cbn [printed] in Hstatus.
  rewrite !removelast_last in Hstatus.
  unfold stdout. rewrite !printed_app. cbn [printed]. now rewrite Hstatus.
Qed.

Lemma stdout_does_not_name_the_failing_call_witness :
  stdout (trace_of (mock_torch mock_device_error) 0) =
  stdout (trace_of (mock_torch mock_count_error) 0).
Proof.
  refine (stdout_does_not_name_the_failing_call
            (mock_torch mock_device_error) (mock_torch mock_count_error) 0 0
            (Device 0) DeviceCount "invalid device"%string _ _ _).
  - cbn. tauto.
  - cbn. tauto.
  - reflexivity.
Defined.

(** ** What the script does to the runtime *)

(** X10.  The script changes the runtime only through its six calls.  If
    the import and the four queries leave the runtime state as it is, and
    [torch.cuda.device] does so when given the device that is current, then
    an execution leaves the runtime in the state it found, whatever the calls
    answer and wherever it stops, and a second execution repeats the first
    event for event. *)
Theorem read_only_runtime_is_left_unchanged
    {S : Type} (torch : Torch S) (s : S) :
  (forall s, snd (import_torch torch s) = s) ->
  (forall s, snd (cuda_current_device torch s) = s) ->
  (forall s, snd (cuda_device_count torch s) = s) ->
  (forall d s, snd (cuda_get_device_name torch d s) = s) ->
  (forall s, snd (cuda_is_available torch s) = s) ->
  (forall s d, fst (cuda_current_device torch s) = Returned d ->
               snd (cuda_device torch d s) = s) ->
  final_state torch s = s /\
  trace_of torch (final_state torch s) = trace_of torch s.
Proof.
  intros Himport Hcurrent Hcount Hname Havail Hdevice.
  assert (Hkeep : final_state torch s = s)
    by (apply run_keeps_state; assumption).
  now rewrite Hkeep.
Qed.

Lemma read_only_runtime_is_left_unchanged_witness :
  final_state (selector_torch ["Mock GPU"%string]) 0%Z = 0%Z.
Proof.
  refine (proj1 (read_only_runtime_is_left_unchanged
                   (selector_torch ["Mock GPU"%string]) 0%Z _ _ _ _ _ _));
    try reflexivity.
  intros s d H. cbn in *. now inversion H.
Defined.
